(** * blaze/constructors.py: the array constructors

    A shallow embedding of [array], [_fromiter], [zeros], [ones] and [open]
    from [blaze/constructors.py], and the properties of the construction
    dispatcher proved over it.

    Python values are one dynamically typed universe [pyobj]; the modules the
    file imports ([datashape], [numpy], [blz]) are records of functions the
    constructors are parametrised by; exceptions and the consumption of
    generators are explicit in the monad [M]. *)

From Stdlib Require Import ZArith Ascii String.
From stdpp Require Import base option list strings gmap.

Local Open Scope string_scope.
Local Open Scope Z_scope.
Local Open Scope list_scope.

(** ** Python values *)

(** Address of a heap object whose identity or state matters. *)
Definition loc := positive.

(** [numpy.dtype] tags. *)
Inductive dtype := float64 | int64 | bool_ | string_ | object_.

(** The classes the constructors test for; [cls_named] is any other class. *)
Inductive pyclass :=
| IDataDescriptor
| ndarray
| barray
| GeneratorType
| cls_named (name : string).

#[warnings="-register-all"] Inductive pyobj :=
| PNone
| PBool (b : bool)
| PInt (z : Z)
| PStr (s : string)
| PList (xs : list pyobj)
| PDtype (d : dtype)
    (* a structured datashape: dimension extents ([None] is an unbound
       dimension) and the element type *)
| PDataShape (dims : list (option nat)) (measure : dtype)
    (* a generator object; what it has yet to yield lives in the [world] *)
| PGenerator (g : loc)
| PNdarray (shape : list nat) (dt : dtype) (data : list pyobj)
| PBarray (shape : list nat) (dt : dtype) (data : list pyobj)
| NumPyDataDescriptor (npyarr : pyobj)
| BLZDataDescriptor (blzarr : pyobj)
    (* an instance of any other class, with the classes it derives from *)
| PInstance (bases : list pyclass) (id : loc).

(** [blaze.array.Array]: the handle every constructor returns. *)
Record blaze_array := Array { _data : pyobj }.

#[global] Instance dtype_eq_dec : EqDecision dtype.
Proof. solve_decision. Defined.

#[global] Instance pyclass_eq_dec : EqDecision pyclass.
Proof. solve_decision. Defined.

(** ** Exceptions, the generator store and the monad *)

Inductive exn :=
| TypeError (msg : string)
| UnboundLocalError (name : string)
| NotImplementedError
| ValueError (msg : string)
    (* an exception class of a collaborator *)
| OtherError (cls msg : string).

Definition result (A : Type) : Type := (exn + A)%type.

(** What each live generator has yet to yield. *)
Abbreviation world := (gmap loc (list pyobj)).

Definition M (A : Type) : Type := world -> result A * world.

#[global] Instance M_ret : MRet M := fun A a w => (inr a, w).

#[global] Instance M_bind : MBind M := fun A B f m w =>
  match m w with
  | (inr a, w') => f a w'
  | (inl e, w') => (inl e, w')
  end.

Definition raise {A} (e : exn) : M A := fun w => (inl e, w).

(** A call that cannot touch the generator store. *)
Definition lift {A} (r : result A) : M A := fun w => (r, w).

(** ** Builtins *)

Definition isinstance (o : pyobj) (c : pyclass) : bool :=
  match o with
  | NumPyDataDescriptor _ | BLZDataDescriptor _ => bool_decide (c = IDataDescriptor)
  | PNdarray _ _ _ => bool_decide (c = ndarray)
  | PBarray _ _ _ => bool_decide (c = barray)
  | PGenerator _ => bool_decide (c = GeneratorType)
  | PInstance bases _ => bool_decide (c ∈ bases)
  | _ => false
  end.

(** [inspect.isgenerator(o)] is [isinstance(o, types.GeneratorType)]. *)
Definition inspect_isgenerator (o : pyobj) : bool := isinstance o GeneratorType.

Definition _is_str (s : pyobj) : bool :=
  match s with PStr _ => true | _ => false end.

Definition is_None (o : pyobj) : bool :=
  match o with PNone => true | _ => false end.

(** [k in caps] on a dictionary: the key is present, whatever its value. *)
Definition py_in (k : string) (caps : gmap string pyobj) : bool :=
  match caps !! k with Some _ => true | None => false end.

(** [repr(type(o))], used in the [TypeError] message. *)
Definition type_repr (o : pyobj) : string :=
  match o with
  | PNone => "<type 'NoneType'>"
  | PBool _ => "<type 'bool'>"
  | PInt _ => "<type 'int'>"
  | PStr _ => "<type 'str'>"
  | PList _ => "<type 'list'>"
  | PDtype _ => "<type 'numpy.dtype'>"
  | PDataShape _ _ => "<class 'blaze.datashape.coretypes.DataShape'>"
  | PGenerator _ => "<type 'generator'>"
  | PNdarray _ _ _ => "<type 'numpy.ndarray'>"
  | PBarray _ _ _ => "<type 'blaze.blz.blz_ext.barray'>"
  | NumPyDataDescriptor _ => "<class 'blaze.datadescriptor.NumPyDataDescriptor'>"
  | BLZDataDescriptor _ => "<class 'blaze.datadescriptor.BLZDataDescriptor'>"
  | PInstance _ _ => "<type 'instance'>"
  end.

(** ** The imported modules *)

(** [from .datashape import dshape as _dshape_builder, to_numpy, to_dtype] *)
Record DataShapeModule := {
  _dshape_builder : pyobj -> result pyobj;
  to_dtype : pyobj -> result pyobj;
  to_numpy : pyobj -> result (pyobj * pyobj)
}.

(** [import numpy as np]: [np.array(obj, dtype)], [np.fromiter(gen, dtype)],
    [np.zeros(shape, dtype)], [np.ones(shape, dtype)]. *)
Record NumPyModule := {
  np_array : pyobj -> pyobj -> result pyobj;
  np_fromiter : pyobj -> pyobj -> M pyobj;
  np_zeros : pyobj -> pyobj -> result pyobj;
  np_ones : pyobj -> pyobj -> result pyobj
}.

(** [from . import blz]: [blz.barray(obj, dtype)],
    [blz.fromiter(gen, dtype, count)], [blz.zeros(shape, dtype)],
    [blz.ones(shape, dtype)]. *)
Record BLZModule := {
  blz_barray : pyobj -> pyobj -> result pyobj;
  blz_fromiter : pyobj -> pyobj -> Z -> M pyobj;
  blz_zeros : pyobj -> pyobj -> result pyobj;
  blz_ones : pyobj -> pyobj -> result pyobj
}.

(** ** The constructors *)

Section constructors.
Variable datashape : DataShapeModule.
Variable np : NumPyModule.
Variable blz : BLZModule.

(** [_fromiter(gen, dshape, caps)].  The local [dd] is bound only in the
    two capability branches; [Array(dd)] on an unbound local raises
    [UnboundLocalError]. *)
Definition _fromiter (gen dshape : pyobj) (caps : gmap string pyobj)
  : M blaze_array :=
  dshape ← (if negb (_is_str dshape) then mret dshape
            else lift (_dshape_builder datashape dshape));
  dd ← (if py_in "efficient-write" caps then
          dt ← (if is_None dshape then mret PNone
                else lift (to_dtype datashape dshape));
          a ← np_fromiter np gen dt;
          mret (Some (NumPyDataDescriptor a))
        else if py_in "compress" caps then
          dt ← (if is_None dshape then mret PNone
                else lift (to_dtype datashape dshape));
          b ← blz_fromiter blz gen dt (-1);
          mret (Some (BLZDataDescriptor b))
        else mret None);
  match dd with
  | Some dd => mret (Array dd)
  | None => raise (UnboundLocalError "dd")
  end.

(** [array(obj, dshape=None, caps={'efficient-write': True})].  A branch
    that binds [dd] goes on to the closing [return Array(dd)]; the generator
    branch returns what [_fromiter] returns. *)
Definition array (obj dshape : pyobj) (caps : gmap string pyobj)
  : M blaze_array :=
  dshape ← (if negb (_is_str dshape) then mret dshape
            else lift (_dshape_builder datashape dshape));
  if isinstance obj IDataDescriptor then
    mret (Array obj)
  else if isinstance obj ndarray then
    mret (Array (NumPyDataDescriptor obj))
  else if isinstance obj barray then
    mret (Array (BLZDataDescriptor obj))
  else if inspect_isgenerator obj then
    _fromiter obj dshape caps
  else if py_in "efficient-write" caps then
    dt ← (if is_None dshape then mret PNone
          else lift (to_dtype datashape dshape));
    a ← lift (np_array np obj dt);
    mret (Array (NumPyDataDescriptor a))
  else if py_in "compress" caps then
    dt ← (if is_None dshape then mret PNone
          else lift (to_dtype datashape dshape));
    b ← lift (blz_barray blz obj dt);
    mret (Array (BLZDataDescriptor b))
  else
    raise (TypeError ("Failed to construct blaze array from object of type "
                      +:+ type_repr obj)).

(** [zeros(dshape, caps={'efficient-write': True})] *)
Definition zeros (dshape : pyobj) (caps : gmap string pyobj)
  : M blaze_array :=
  dshape ← (if negb (_is_str dshape) then mret dshape
            else lift (_dshape_builder datashape dshape));
  dd ← (if py_in "efficient-write" caps then
          '(shape, dt) ← (if is_None dshape then mret (PNone, PNone)
                          else lift (to_numpy datashape dshape));
          a ← lift (np_zeros np shape dt);
          mret (Some (NumPyDataDescriptor a))
        else if py_in "compress" caps then
          '(shape, dt) ← (if is_None dshape then mret (PNone, PNone)
                          else lift (to_numpy datashape dshape));
          b ← lift (blz_zeros blz shape dt);
          mret (Some (BLZDataDescriptor b))
        else mret None);
  match dd with
  | Some dd => mret (Array dd)
  | None => raise (UnboundLocalError "dd")
  end.

(** [ones(dshape, caps={'efficient-write': True})] *)
Definition ones (dshape : pyobj) (caps : gmap string pyobj)
  : M blaze_array :=
  dshape ← (if negb (_is_str dshape) then mret dshape
            else lift (_dshape_builder datashape dshape));
  dd ← (if py_in "efficient-write" caps then
          '(shape, dt) ← (if is_None dshape then mret (PNone, PNone)
                          else lift (to_numpy datashape dshape));
          a ← lift (np_ones np shape dt);
          mret (Some (NumPyDataDescriptor a))
        else if py_in "compress" caps then
          '(shape, dt) ← (if is_None dshape then mret (PNone, PNone)
                          else lift (to_numpy datashape dshape));
          b ← lift (blz_ones blz shape dt);
          mret (Some (BLZDataDescriptor b))
        else mret None);
  match dd with
  | Some dd => mret (Array dd)
  | None => raise (UnboundLocalError "dd")
  end.

(** [open(uri)] *)
Definition open (uri : pyobj) : M blaze_array := raise NotImplementedError.

End constructors.

(** The default value of [caps]. *)
Definition default_caps : gmap string pyobj := {[ "efficient-write" := PBool true ]}.

(** ** What a handle shows *)

(** The three variants of data descriptor a handle can wrap. *)
Inductive variant := native_buffer | compressed_chunked | foreign.

Definition descriptor_variant (h : blaze_array) : variant :=
  match _data h with
  | NumPyDataDescriptor _ => native_buffer
  | BLZDataDescriptor _ => compressed_chunked
  | _ => foreign
  end.

(** The elements of the store behind a handle, in order. *)
Definition handle_contents (h : blaze_array) : option (list pyobj) :=
  match _data h with
  | NumPyDataDescriptor (PNdarray _ _ data) => Some data
  | BLZDataDescriptor (PBarray _ _ data) => Some data
  | _ => None
  end.

(** [len(h)]: the extent of the outermost dimension. *)
Definition handle_len (h : blaze_array) : option nat :=
  match _data h with
  | NumPyDataDescriptor (PNdarray (n :: _) _ _) => Some n
  | BLZDataDescriptor (PBarray (n :: _) _ _) => Some n
  | _ => None
  end.

(** ** Element types *)

Definition scalar_type (o : pyobj) : option dtype :=
  match o with
  | PBool _ => Some bool_
  | PInt _ => Some int64
  | PStr _ => Some string_
  | _ => None
  end.

(** Every element is a scalar of type [T]. *)
Definition all_of_type (T : dtype) (xs : list pyobj) : bool :=
  forallb (fun x => bool_decide (scalar_type x = Some T)) xs.

(** The elements are scalars of a single type. *)
Definition single_type (xs : list pyobj) : bool :=
  match xs with
  | [] => true
  | x :: _ =>
      match scalar_type x with
      | Some T => all_of_type T xs
      | None => false
      end
  end.

(** The elements can be stored under the requested element type [dt]:
    all of that type, or, when none is requested, all of one type. *)
Definition coercible (dt : pyobj) (xs : list pyobj) : bool :=
  match dt with
  | PNone => single_type xs
  | PDtype T => all_of_type T xs
  | _ => false
  end.

(** The element type of the store built from [xs] under the request [dt]. *)
Definition elem_dtype (dt : pyobj) (xs : list pyobj) : dtype :=
  match dt with
  | PDtype T => T
  | _ =>
      match xs with
      | x :: _ => default float64 (scalar_type x)
      | [] => float64
      end
  end.

(** ** Contracts of the storage engines *)

(** Modelled from the spec: [numpy.fromiter] is not part of this repository.
    The native engine's construct-from-iterator materialises the producer
    into a buffer sized by consumption: it draws every element the generator
    has left, once, and the buffer holds them in order. *)
Definition native_fromiter_contract (np : NumPyModule) : Prop :=
  forall (g : loc) (xs : list pyobj) (dt : pyobj) (w : world),
    w !! g = Some xs ->
    coercible dt xs = true ->
    np_fromiter np (PGenerator g) dt w
    = (inr (PNdarray [length xs] (elem_dtype dt xs) xs), <[g := []]> w).

(** Modelled from the spec: [blz/fromiter] is not among the sources.  The
    compressed-chunked engine's build-from-iterator, told by the count [-1]
    that the length is unknown, draws every element the generator has left,
    once, and the store holds them in order.  Nothing is promised for another
    count. *)
Definition chunked_fromiter_contract (blz : BLZModule) : Prop :=
  forall (g : loc) (xs : list pyobj) (dt : pyobj) (w : world),
    w !! g = Some xs ->
    coercible dt xs = true ->
    blz_fromiter blz (PGenerator g) dt (-1) w
    = (inr (PBarray [length xs] (elem_dtype dt xs) xs), <[g := []]> w).

(** ** Reference collaborators *)

Module Ref.

(** *** The datashape parser *)

Definition comma_to_space (a : ascii) : ascii :=
  if decide (a = ","%char) then " "%char else a.

Fixpoint map_string (f : ascii -> ascii) (s : string) : string :=
  match s with
  | EmptyString => EmptyString
  | String a s => String (f a) (map_string f s)
  end.

Fixpoint decimal_go (acc : nat) (s : string) : option nat :=
  match s with
  | EmptyString => Some acc
  | String a s =>
      match Ascii.is_nat a with
      | Some d => decimal_go (10 * acc + d)%nat s
      | None => None
      end
  end.

Definition decimal (s : string) : option nat :=
  match s with
  | EmptyString => None
  | _ => decimal_go 0%nat s
  end.

Definition measure (s : string) : option dtype :=
  if decide (s = "float64") then Some float64
  else if decide (s = "int64") then Some int64
  else if decide (s = "bool") then Some bool_
  else if decide (s = "string") then Some string_
  else if decide (s = "object") then Some object_
  else None.

(** A dimension is a decimal extent, or [var] for an unbound one. *)
Definition dimension (s : string) : option (option nat) :=
  if decide (s = "var") then Some None else Some <$> decimal s.

Fixpoint datashape_of (toks : list string)
  : option (list (option nat) * dtype) :=
  match toks with
  | [] => None
  | [m] => (fun T => ([], T)) <$> measure m
  | d :: toks =>
      match dimension d, datashape_of toks with
      | Some n, Some (ds, T) => Some (n :: ds, T)
      | _, _ => None
      end
  end.

(** Modelled from the spec: the datashape parser is not among the sources.
    It accepts a textual shape/type expression, here the dialect
    [extent, ..., extent, measure], and returns the structured descriptor;
    it fails with a parse error on malformed text. *)
Definition dshape_builder (o : pyobj) : result pyobj :=
  match o with
  | PStr s =>
      match datashape_of (String.words (map_string comma_to_space s)) with
      | Some (ds, T) => inr (PDataShape ds T)
      | None => inl (OtherError "DataShapeSyntaxError" s)
      end
  | _ => inl (TypeError "dshape: expected a string")
  end.

(** Modelled from the spec: the element-type portion of a descriptor. *)
Definition dtype_of (o : pyobj) : result pyobj :=
  match o with
  | PDataShape _ T => inr (PDtype T)
  | _ => inl (TypeError "to_dtype: not a datashape")
  end.

Fixpoint fixed_extents (ds : list (option nat)) : option (list nat) :=
  match ds with
  | [] => Some []
  | Some n :: ds => cons n <$> fixed_extents ds
  | None :: _ => None
  end.

(** Modelled from the spec: the numeric-shape projection, which fails on
    an unbound dimension. *)
Definition shape_and_dtype (o : pyobj) : result (pyobj * pyobj) :=
  match o with
  | PDataShape ds T =>
      match fixed_extents ds with
      | Some ns => inr (PList ((fun n => PInt (Z.of_nat n)) <$> ns), PDtype T)
      | None => inl (TypeError "to_numpy: unbound dimension")
      end
  | _ => inl (TypeError "to_numpy: not a datashape")
  end.

Definition datashape : DataShapeModule :=
  {| _dshape_builder := dshape_builder;
     to_dtype := dtype_of;
     to_numpy := shape_and_dtype |}.

(** *** The storage engines *)

(** The extents a [shape] argument denotes. *)
Definition extent (o : pyobj) : option nat :=
  match o with
  | PInt n => if (0 <=? n)%Z then Some (Z.to_nat n) else None
  | _ => None
  end.

Fixpoint extents (os : list pyobj) : option (list nat) :=
  match os with
  | [] => Some []
  | o :: os =>
      match extent o, extents os with
      | Some n, Some ns => Some (n :: ns)
      | _, _ => None
      end
  end.

Definition requested_dtype (dt : pyobj) : option dtype :=
  match dt with
  | PNone => Some float64
  | PDtype T => Some T
  | _ => None
  end.

(** Modelled from the spec: [numpy.array(obj, dtype)], construct-from-value.
    A sequence becomes a one-dimensional buffer, a scalar a 0-dimensional
    one; elements that do not fit the element type are refused. *)
Definition array_of (obj dt : pyobj) : result pyobj :=
  match obj with
  | PList xs =>
      if coercible dt xs then inr (PNdarray [length xs] (elem_dtype dt xs) xs)
      else inl (ValueError "array: cannot convert the elements")
  | _ =>
      if coercible dt [obj] then inr (PNdarray [] (elem_dtype dt [obj]) [obj])
      else inl (ValueError "array: cannot convert the value")
  end.

(** Modelled from the spec: [numpy.fromiter(gen, dtype)],
    construct-from-iterator.  The generator is drained whether or not its
    elements fit. *)
Definition fromiter (gen dt : pyobj) : M pyobj := fun w =>
  match gen with
  | PGenerator g =>
      match w !! g with
      | Some xs =>
          (if coercible dt xs
           then inr (PNdarray [length xs] (elem_dtype dt xs) xs)
           else inl (ValueError "fromiter: cannot convert the elements"),
           <[g := []]> w)
      | None => (inl (TypeError "fromiter: not a live generator"), w)
      end
  | _ => (inl (TypeError "fromiter: not a generator"), w)
  end.

(** Modelled from the spec: [numpy.zeros] and [numpy.ones], the native
    engine's construct-filled(shape, element-type, fill-value).  Where the
    specification is silent the model follows NumPy: an absent shape is read
    as the empty tuple, the shape of a 0-dimensional array, and an absent
    element type as [float64]. *)
Definition filled (fill : Z) (shape dt : pyobj) : result pyobj :=
  let dims :=
    match shape with
    | PNone => Some []
    | PInt _ => (fun n => [n]) <$> extent shape
    | PList os => extents os
    | _ => None
    end in
  match dims, requested_dtype dt with
  | Some ns, Some T =>
      inr (PNdarray ns T (replicate (foldr Nat.mul 1%nat ns) (PInt fill)))
  | None, _ => inl (TypeError "expected a sequence of integers or a single integer")
  | _, None => inl (TypeError "data type not understood")
  end.

Definition numpy : NumPyModule :=
  {| np_array := array_of;
     np_fromiter := fromiter;
     np_zeros := filled 0;
     np_ones := filled 1 |}.

(** Modelled from the spec: [blz.barray(obj, dtype)]. *)
Definition chunked_of (obj dt : pyobj) : result pyobj :=
  match obj with
  | PList xs =>
      if coercible dt xs then inr (PBarray [length xs] (elem_dtype dt xs) xs)
      else inl (ValueError "barray: cannot convert the elements")
  | _ =>
      if coercible dt [obj] then inr (PBarray [] (elem_dtype dt [obj]) [obj])
      else inl (ValueError "barray: cannot convert the value")
  end.

(** Modelled from the spec: [blz.fromiter(gen, dtype, count)], the
    streaming build-from-iterator.  A negative [count] says the length is
    unknown and the generator is drained; otherwise [count] elements are
    drawn and the rest stay with the generator. *)
Definition chunked_fromiter (gen dt : pyobj) (count : Z) : M pyobj := fun w =>
  match gen with
  | PGenerator g =>
      match w !! g with
      | Some xs =>
          let n := if (count <? 0)%Z then length xs else Z.to_nat count in
          let taken := take n xs in
          (if coercible dt taken
           then inr (PBarray [length taken] (elem_dtype dt taken) taken)
           else inl (ValueError "fromiter: cannot convert the elements"),
           <[g := drop n xs]> w)
      | None => (inl (TypeError "fromiter: not a live generator"), w)
      end
  | _ => (inl (TypeError "fromiter: not a generator"), w)
  end.

(** Modelled from the spec: [blz.zeros] and [blz.ones], the
    compressed-chunked engine's construct-filled.  This one refuses an absent
    shape. *)
Definition chunked_filled (fill : Z) (shape dt : pyobj) : result pyobj :=
  let dims :=
    match shape with
    | PInt _ => (fun n => [n]) <$> extent shape
    | PList os => extents os
    | _ => None
    end in
  match dims, requested_dtype dt with
  | Some ns, Some T =>
      inr (PBarray ns T (replicate (foldr Nat.mul 1%nat ns) (PInt fill)))
  | None, _ => inl (TypeError "shape is not iterable")
  | _, None => inl (TypeError "data type not understood")
  end.

Definition blz : BLZModule :=
  {| blz_barray := chunked_of;
     blz_fromiter := chunked_fromiter;
     blz_zeros := chunked_filled 0;
     blz_ones := chunked_filled 1 |}.

(** A store with two live generators: [1] has yet to yield [10, 20, 30],
    [2] the strings [a, b]. *)
Definition w0 : world :=
  {[ 1%positive := [PInt 10; PInt 20; PInt 30];
     2%positive := [PStr "a"; PStr "b"] ]}.

End Ref.

(** ** The dispatch as the specification words it *)

(** The normalisation every entry point starts with: text is handed to the
    parser, anything else is used as it is. *)
Definition parsed (datashape : DataShapeModule) (dshape : pyobj) : result pyobj :=
  if negb (_is_str dshape) then inr dshape else _dshape_builder datashape dshape.

(** The element type asked of an engine: none for an absent descriptor,
    else the element-type portion of the descriptor. *)
Definition dtype_request (datashape : DataShapeModule) (dshape : pyobj)
  : result pyobj :=
  if is_None dshape then inr PNone else to_dtype datashape dshape.

(** The seven branches of [construct], in the order the specification lists
    them. *)
Inductive branch :=
| b_descriptor
| b_native_array
| b_chunked_array
| b_generator
| b_efficient_write
| b_compress
| b_unsupported.

Definition dispatch_order : list branch :=
  [b_descriptor; b_native_array; b_chunked_array; b_generator;
   b_efficient_write; b_compress; b_unsupported].

(** The condition under which a branch applies. *)
Definition applies (b : branch) (obj : pyobj) (caps : gmap string pyobj) : bool :=
  match b with
  | b_descriptor => isinstance obj IDataDescriptor
  | b_native_array => isinstance obj ndarray
  | b_chunked_array => isinstance obj barray
  | b_generator => inspect_isgenerator obj
  | b_efficient_write => py_in "efficient-write" caps
  | b_compress => py_in "compress" caps
  | b_unsupported => true
  end.

(** First match wins: [b] is taken when it applies and no branch listed
    before it does. *)
Definition taken (b : branch) (obj : pyobj) (caps : gmap string pyobj) : Prop :=
  exists earlier later,
    dispatch_order = earlier ++ b :: later /\
    applies b obj caps = true /\
    Forall (fun b' => applies b' obj caps = false) earlier.

(** What each branch does with the input, as the specification describes
    it. *)
Definition branch_action (datashape : DataShapeModule) (np : NumPyModule)
    (blz : BLZModule) (b : branch) (obj dshape : pyobj)
    (caps : gmap string pyobj) : M blaze_array :=
  match b with
  | b_descriptor => mret (Array obj)
  | b_native_array => mret (Array (NumPyDataDescriptor obj))
  | b_chunked_array => mret (Array (BLZDataDescriptor obj))
  | b_generator => _fromiter datashape np blz obj dshape caps
  | b_efficient_write =>
      dt ← lift (dtype_request datashape dshape);
      a ← lift (np_array np obj dt);
      mret (Array (NumPyDataDescriptor a))
  | b_compress =>
      dt ← lift (dtype_request datashape dshape);
      b ← lift (blz_barray blz obj dt);
      mret (Array (BLZDataDescriptor b))
  | b_unsupported =>
      raise (TypeError ("Failed to construct blaze array from object of type "
                        +:+ type_repr obj))
  end.

(** The descriptor variant a branch yields when it returns a handle. *)
Definition branch_variant (b : branch) (obj : pyobj) (caps : gmap string pyobj)
  : option variant :=
  match b with
  | b_descriptor => Some (descriptor_variant (Array obj))
  | b_native_array => Some native_buffer
  | b_chunked_array => Some compressed_chunked
  | b_generator =>
      if py_in "efficient-write" caps then Some native_buffer
      else if py_in "compress" caps then Some compressed_chunked
      else None
  | b_efficient_write => Some native_buffer
  | b_compress => Some compressed_chunked
  | b_unsupported => None
  end.

(** The branch the dispatch settles on. *)
Definition first_match (obj : pyobj) (caps : gmap string pyobj) : option branch :=
  find (fun b => applies b obj caps) dispatch_order.

(** An entry point [f] builds on the native engine alone under [caps]: the
    compressed-chunked engine has no say in the outcome, which is the one
    [caps] without [compress] gives, and a handle it returns wraps a
    native-buffer descriptor. *)
Definition native_only (f : BLZModule -> gmap string pyobj -> M blaze_array)
    (caps : gmap string pyobj) (w : world) : Prop :=
  (forall blz blz', f blz caps w = f blz' (delete "compress" caps) w) /\
  (forall blz h w', f blz caps w = (inr h, w') ->
                    descriptor_variant h = native_buffer).

(** A call that fails: it raises and returns no handle. *)
Definition fails {A} (r : result A * world) : Prop :=
  exists e w', r = (inl e, w').

(** A store wrapped in its descriptor and handle. *)
Definition wrap (descriptor : pyobj -> pyobj) (r : result pyobj)
  : result blaze_array :=
  match r with
  | inr store => inr (Array (descriptor store))
  | inl e => inl e
  end.

(** ** Further observations and contracts *)

(** The counterpart of [native_only]: an entry point [f] builds on the
    compressed-chunked engine alone under [caps]: the native engine has no
    say in the outcome, and a handle it returns wraps a compressed-chunked
    descriptor. *)
Definition chunked_only (f : NumPyModule -> M blaze_array) (w : world) : Prop :=
  (forall np np', f np w = f np' w) /\
  (forall np h w', f np w = (inr h, w') ->
                   descriptor_variant h = compressed_chunked).

(** The extents of the store behind a handle. *)
Definition handle_shape (h : blaze_array) : option (list nat) :=
  match _data h with
  | NumPyDataDescriptor (PNdarray shape _ _) => Some shape
  | BLZDataDescriptor (PBarray shape _ _) => Some shape
  | _ => None
  end.

(** The element type of the store behind a handle. *)
Definition handle_dtype (h : blaze_array) : option dtype :=
  match _data h with
  | NumPyDataDescriptor (PNdarray _ T _) => Some T
  | BLZDataDescriptor (PBarray _ T _) => Some T
  | _ => None
  end.

(** A tuple of fixed extents as a [shape] argument. *)
Definition shape_arg (ns : list nat) : pyobj :=
  PList ((fun n => PInt (Z.of_nat n)) <$> ns).

(** The number of elements of an array of extents [ns]. *)
Definition size_of (ns : list nat) : nat := foldr Nat.mul 1%nat ns.

(** Modelled from the spec: [to_numpy] is not among the sources.  It
    projects a descriptor whose dimensions are all fixed into the tuple of
    its extents and its element type. *)
Definition projection_contract (datashape : DataShapeModule) : Prop :=
  forall (ns : list nat) (T : dtype),
    to_numpy datashape (PDataShape (Some <$> ns) T) = inr (shape_arg ns, PDtype T).

(** Modelled from the spec: the native engine's construct-filled allocates
    a store of the exact shape and element type asked for, every element
    the literal [0] for [numpy.zeros] and [1] for [numpy.ones]. *)
Definition native_filled_contract (np : NumPyModule) : Prop :=
  forall (ns : list nat) (T : dtype),
    np_zeros np (shape_arg ns) (PDtype T)
    = inr (PNdarray ns T (replicate (size_of ns) (PInt 0))) /\
    np_ones np (shape_arg ns) (PDtype T)
    = inr (PNdarray ns T (replicate (size_of ns) (PInt 1))).

(** Modelled from the spec: the same for the compressed-chunked engine's
    [blz.zeros] and [blz.ones]. *)
Definition chunked_filled_contract (blz : BLZModule) : Prop :=
  forall (ns : list nat) (T : dtype),
    blz_zeros blz (shape_arg ns) (PDtype T)
    = inr (PBarray ns T (replicate (size_of ns) (PInt 0))) /\
    blz_ones blz (shape_arg ns) (PDtype T)
    = inr (PBarray ns T (replicate (size_of ns) (PInt 1))).

(** ** The two backends, branch by branch *)

(** The shape and element type asked of a filling primitive: both absent
    for an absent descriptor, else the numeric-shape projection of the
    descriptor. *)
Definition shape_request (datashape : DataShapeModule) (dshape : pyobj)
  : result (pyobj * pyobj) :=
  if is_None dshape then inr (PNone, PNone) else to_numpy datashape dshape.

(** The write-optimised coercion: [obj] is turned into a native in-memory
    array by [np.array], with the element type of the dshape if one is
    given, and wrapped in a native-buffer descriptor. *)
Definition native_coerce (datashape : DataShapeModule) (np : NumPyModule)
    (obj dshape : pyobj) : M blaze_array :=
  ds ← lift (parsed datashape dshape);
  dt ← lift (dtype_request datashape ds);
  a ← lift (np_array np obj dt);
  mret (Array (NumPyDataDescriptor a)).

(** The write-optimised iterator path: the producer is materialised by
    [np.fromiter] and wrapped in a native-buffer descriptor. *)
Definition native_fromiter (datashape : DataShapeModule) (np : NumPyModule)
    (gen dshape : pyobj) : M blaze_array :=
  ds ← lift (parsed datashape dshape);
  dt ← lift (dtype_request datashape ds);
  a ← np_fromiter np gen dt;
  mret (Array (NumPyDataDescriptor a)).

(** The write-optimised fill: a store of the projected shape and element
    type is allocated by the native filling primitive [fill] ([np.zeros] or
    [np.ones]) and wrapped in a native-buffer descriptor. *)
Definition native_filled (datashape : DataShapeModule)
    (fill : pyobj -> pyobj -> result pyobj) (dshape : pyobj) : M blaze_array :=
  ds ← lift (parsed datashape dshape);
  '(shape, dt) ← lift (shape_request datashape ds);
  a ← lift (fill shape dt);
  mret (Array (NumPyDataDescriptor a)).

(** The compressing coercion: [blz.barray] and a compressed-chunked
    descriptor. *)
Definition chunked_coerce (datashape : DataShapeModule) (blz : BLZModule)
    (obj dshape : pyobj) : M blaze_array :=
  ds ← lift (parsed datashape dshape);
  dt ← lift (dtype_request datashape ds);
  b ← lift (blz_barray blz obj dt);
  mret (Array (BLZDataDescriptor b)).

(** The compressing iterator path: [blz.fromiter] with the count [-1] and
    a compressed-chunked descriptor. *)
Definition chunked_stream (datashape : DataShapeModule) (blz : BLZModule)
    (gen dshape : pyobj) : M blaze_array :=
  ds ← lift (parsed datashape dshape);
  dt ← lift (dtype_request datashape ds);
  b ← blz_fromiter blz gen dt (-1);
  mret (Array (BLZDataDescriptor b)).

(** The compressing fill: the chunked filling primitive [fill] ([blz.zeros]
    or [blz.ones]) and a compressed-chunked descriptor. *)
Definition chunked_fill (datashape : DataShapeModule)
    (fill : pyobj -> pyobj -> result pyobj) (dshape : pyobj) : M blaze_array :=
  ds ← lift (parsed datashape dshape);
  '(shape, dt) ← lift (shape_request datashape ds);
  b ← lift (fill shape dt);
  mret (Array (BLZDataDescriptor b)).

(** Unfold the branches of the two backends. *)
Ltac run_branches :=
  unfold native_coerce, native_fromiter, native_filled, chunked_coerce,
    chunked_stream, chunked_fill, shape_request in *.

(** ** Proof automation *)

(** Unfold the constructors and the monad down to matches on the outcomes
    of the collaborators. *)
Ltac run :=
  unfold array, _fromiter, zeros, ones, open, branch_action, parsed,
    dtype_request, inspect_isgenerator, wrap,
    mbind, M_bind, mret, M_ret, lift, raise in *.

(** Case analysis on every outcome in sight. *)
Ltac crunch := repeat (case_match; simplify_eq/=; try done).

(** ** Sanity checks of the embedding on concrete calls *)

Example array_of_list :
  array Ref.datashape Ref.numpy Ref.blz (PList [PInt 1; PInt 2]) PNone default_caps Ref.w0
  = (inr (Array (NumPyDataDescriptor (PNdarray [2%nat] int64 [PInt 1; PInt 2]))), Ref.w0).
Proof. reflexivity. Qed.

Example array_of_scalar :
  array Ref.datashape Ref.numpy Ref.blz (PInt 42) PNone default_caps Ref.w0
  = (inr (Array (NumPyDataDescriptor (PNdarray [] int64 [PInt 42]))), Ref.w0).
Proof. reflexivity. Qed.

Example zeros_of_text :
  zeros Ref.datashape Ref.numpy Ref.blz (PStr "2, 3, int64") default_caps Ref.w0
  = (inr (Array (NumPyDataDescriptor
                   (PNdarray [2%nat; 3%nat] int64 (replicate 6 (PInt 0))))), Ref.w0).
Proof. reflexivity. Qed.

Example ones_compressed :
  ones Ref.datashape Ref.numpy Ref.blz (PStr "2, bool") {[ "compress" := PBool true ]} Ref.w0
  = (inr (Array (BLZDataDescriptor (PBarray [2%nat] bool_ [PInt 1; PInt 1]))), Ref.w0).
Proof. reflexivity. Qed.

Example array_of_generator :
  array Ref.datashape Ref.numpy Ref.blz (PGenerator 1%positive) PNone default_caps Ref.w0
  = (inr (Array (NumPyDataDescriptor
                   (PNdarray [3%nat] int64 [PInt 10; PInt 20; PInt 30]))),
     <[1%positive := []]> Ref.w0).
Proof. reflexivity. Qed.

Example zeros_of_unbound :
  zeros Ref.datashape Ref.numpy Ref.blz (PStr "var, int64") default_caps Ref.w0
  = (inl (TypeError "to_numpy: unbound dimension"), Ref.w0).
Proof. reflexivity. Qed.

(** ** Properties of the dispatcher *)

Section properties.
Variable datashape : DataShapeModule.
Variable np : NumPyModule.
Variable blz : BLZModule.

(** C9: [open(uri)] raises [NotImplementedError] for every [uri]; the
    outcome does not depend on the argument, no handle is returned and no
    generator is touched. *)
Theorem open_not_implemented (uri : pyobj) (w : world) :
  open uri w = (inl NotImplementedError, w).
Proof. reflexivity. Qed.

(** C10: a textual dshape is parsed before the dispatch on [obj]: when the
    parser rejects the text, [array] fails with the parser's error whatever
    [obj] and [caps] are, a data descriptor included. *)
Theorem array_malformed_dshape (obj : pyobj) (s : string)
    (caps : gmap string pyobj) (e : exn) (w : world) :
  _dshape_builder datashape (PStr s) = inl e ->
  array datashape np blz obj (PStr s) caps w = (inl e, w).
Proof. intros He. run. simpl. by rewrite He. Qed.

(** C2: an object that already is a data descriptor is wrapped as it is,
    whatever the capabilities: the handle holds [d] itself and nothing else
    happens.  The dshape is any that is absent, structured or text the
    parser accepts. *)
Theorem array_descriptor_passthrough (d dshape ds1 : pyobj)
    (caps : gmap string pyobj) (w : world) :
  isinstance d IDataDescriptor = true ->
  parsed datashape dshape = inr ds1 ->
  array datashape np blz d dshape caps w = (inr (Array d), w).
Proof.
  intros Hd Hp. run.
  destruct (_is_str dshape); simpl in *; [rewrite Hp | ]; by rewrite Hd.
Qed.

(** C6: an object that is no data descriptor, native array, chunked array
    or generator, with neither capability requested, is refused with the
    [TypeError] that names its type; no handle is returned.  The dshape is
    any that is absent, structured or text the parser accepts. *)
Theorem array_unsupported (obj dshape ds1 : pyobj)
    (caps : gmap string pyobj) (w : world) :
  isinstance obj IDataDescriptor = false ->
  isinstance obj ndarray = false ->
  isinstance obj barray = false ->
  inspect_isgenerator obj = false ->
  py_in "efficient-write" caps = false ->
  py_in "compress" caps = false ->
  parsed datashape dshape = inr ds1 ->
  array datashape np blz obj dshape caps w
  = (inl (TypeError ("Failed to construct blaze array from object of type "
                     +:+ type_repr obj)), w).
Proof.
  intros H1 H2 H3 H4 H5 H6 Hp. run.
  destruct (_is_str dshape); simpl in *; [rewrite Hp | ];
    by rewrite H1, H2, H3, H4, H5, H6.
Qed.

(** C7: for a generator and capabilities with neither [efficient-write]
    nor [compress], the call fails: no handle is returned, the generator is
    not drawn from, and neither engine has a say in the outcome.  The error
    is the parser's when the dshape is rejected, else the
    [UnboundLocalError] of the descriptor that was never built. *)
Theorem array_generator_no_capability (g : loc) (dshape : pyobj)
    (caps : gmap string pyobj) (w : world) :
  py_in "efficient-write" caps = false ->
  py_in "compress" caps = false ->
  exists e,
    (forall np' blz',
        array datashape np' blz' (PGenerator g) dshape caps w = (inl e, w)) /\
    (forall ds1, parsed datashape dshape = inr ds1 -> _is_str ds1 = false ->
                 e = UnboundLocalError "dd" /\
                 forall np' blz',
                   _fromiter datashape np' blz' (PGenerator g) ds1 caps w
                   = (inl e, w)).
Proof.
  intros H5 H6.
  destruct (parsed datashape dshape) as [e1 | ds1] eqn:Hp.
  - exists e1. split; [ | intros; discriminate ].
    intros np' blz'. run.
    destruct (_is_str dshape); simpl in *; [by rewrite Hp | discriminate ].
  - destruct (parsed datashape ds1) as [e2 | ds2] eqn:Hp2.
    + exists e2. split.
      * intros np' blz'. run.
        destruct (_is_str dshape); simpl in *.
        -- rewrite Hp. simpl. destruct (_is_str ds1); simpl in *;
             [by rewrite Hp2 | discriminate ].
        -- simplify_eq. destruct (_is_str ds1); simpl in *;
             [by rewrite Hp2 | discriminate ].
      * intros ds1' [= <-] Hs. run. rewrite Hs in Hp2. discriminate.
    + exists (UnboundLocalError "dd"). split.
      * intros np' blz'. run.
        destruct (_is_str dshape); simpl in *.
        -- rewrite Hp. simpl. destruct (_is_str ds1); simpl in *;
             [rewrite Hp2 | ]; by rewrite H5, H6.
        -- simplify_eq. destruct (_is_str ds1); simpl in *;
             [rewrite Hp2 | ]; by rewrite H5, H6.
      * intros ds1' [= <-] Hs. split; [done | ].
        intros np' blz'. run. rewrite Hs. simpl. by rewrite H5, H6.
Qed.

(** Removing [compress] leaves the test for [efficient-write] as it was. *)
Lemma py_in_delete_compress (caps : gmap string pyobj) :
  py_in "efficient-write" (delete "compress" caps)
  = py_in "efficient-write" caps.
Proof. unfold py_in. by rewrite lookup_delete_ne. Qed.

(** C8: when the capabilities hold both [efficient-write] and [compress],
    [efficient-write] decides in every entry point that branches on them and
    the result is built on the native backend: the coercion branch of
    [array] is the native coercion through [np.array], its generator branch
    and [_fromiter] are the native iterator path through [np.fromiter],
    [zeros] and [ones] are the native fill through [np.zeros] and
    [np.ones].  Each gives the outcome it gives without [compress], whatever
    the compressed-chunked engine is, and a handle it returns wraps a
    native-buffer descriptor. *)
Theorem efficient_write_wins (caps : gmap string pyobj) (w : world) :
  py_in "efficient-write" caps = true ->
  py_in "compress" caps = true ->
  (forall obj dshape,
      isinstance obj IDataDescriptor = false ->
      isinstance obj ndarray = false ->
      isinstance obj barray = false ->
      array datashape np blz obj dshape caps w
      = (if inspect_isgenerator obj
         then (ds1 ← lift (parsed datashape dshape);
               native_fromiter datashape np obj ds1) w
         else native_coerce datashape np obj dshape w) /\
      native_only (fun blz => array datashape np blz obj dshape) caps w) /\
  (forall gen dshape,
      _fromiter datashape np blz gen dshape caps w
      = native_fromiter datashape np gen dshape w /\
      native_only (fun blz => _fromiter datashape np blz gen dshape) caps w) /\
  (forall dshape,
      zeros datashape np blz dshape caps w
      = native_filled datashape (np_zeros np) dshape w /\
      native_only (fun blz => zeros datashape np blz dshape) caps w) /\
  (forall dshape,
      ones datashape np blz dshape caps w
      = native_filled datashape (np_ones np) dshape w /\
      native_only (fun blz => ones datashape np blz dshape) caps w).
Proof.
  intros Hew _.
  pose proof (py_in_delete_compress caps) as Hdel. rewrite Hew in Hdel.
  repeat split; intros; run_branches; run;
    rewrite ?Hdel, ?Hew in *; simpl in *; crunch.
Qed.

(** [find] returns the first element that satisfies the test. *)
Lemma find_first {A} (p : A -> bool) (l : list A) (x : A) :
  find p l = Some x <->
  exists l1 l2, l = l1 ++ x :: l2 /\ p x = true /\
                Forall (fun y => p y = false) l1.
Proof.
  induction l as [ | y l IH]; simpl.
  - split; [done | ]. intros ([ | ? ?] & ? & ? & _); discriminate.
  - destruct (p y) eqn:Hy.
    + split.
      * intros [= ->]. exists [], l. by repeat split.
      * intros ([ | z l1] & l2 & Hl & Hx & Hall); simplify_eq/=; [done | ].
        apply Forall_cons in Hall as [Hz _]. congruence.
    + rewrite IH. split.
      * intros (l1 & l2 & -> & Hx & Hall). exists (y :: l1), l2.
        repeat split; [done | by constructor].
      * intros ([ | z l1] & l2 & Hl & Hx & Hall); simplify_eq/=; [congruence | ].
        apply Forall_cons in Hall as [_ Hall]. by exists l1, l2.
Qed.

Lemma taken_first_match (b : branch) (obj : pyobj) (caps : gmap string pyobj) :
  taken b obj caps <-> first_match obj caps = Some b.
Proof. unfold taken, first_match. by rewrite find_first. Qed.

(** C1: [array] dispatches on [obj] by first match in the order descriptor,
    native array, chunked array, generator, [efficient-write], [compress],
    failure.  For every input exactly one branch is taken; once the dshape
    is normalised the call is that branch's action, and a handle it returns
    has the descriptor variant that branch yields. *)
Theorem array_dispatch (obj dshape : pyobj) (caps : gmap string pyobj) :
  (exists b, taken b obj caps /\ forall b', taken b' obj caps -> b' = b) /\
  (forall b, taken b obj caps -> forall w,
      array datashape np blz obj dshape caps w
      = (ds1 ← lift (parsed datashape dshape);
         branch_action datashape np blz b obj ds1 caps) w /\
      forall h w',
        array datashape np blz obj dshape caps w = (inr h, w') ->
        branch_variant b obj caps = Some (descriptor_variant h)).
Proof.
  split.
  - destruct (first_match obj caps) as [b | ] eqn:Hb.
    + exists b. split; [by apply taken_first_match | ].
      intros b' Hb'%taken_first_match. congruence.
    + unfold first_match, dispatch_order in Hb. simpl in Hb. crunch.
  - intros b Hb%taken_first_match w.
    unfold first_match, dispatch_order, inspect_isgenerator in Hb.
    simpl in Hb.
    destruct (isinstance obj IDataDescriptor) eqn:H1;
      [ | destruct (isinstance obj ndarray) eqn:H2;
          [ | destruct (isinstance obj barray) eqn:H3;
              [ | destruct (isinstance obj GeneratorType) eqn:H4;
                  [ | destruct (py_in "efficient-write" caps) eqn:H5;
                      [ | destruct (py_in "compress" caps) eqn:H6 ] ] ] ] ];
      simplify_eq/=; (split; [ | intros h w' ]); run;
      rewrite ?H1, ?H2, ?H3, ?H4, ?H5, ?H6; simpl; crunch;
      by intros [= <- <-].
Qed.

(** C3: with [efficient-write] requested, a generator that has the
    elements [xs] of a single type left is handed to the native engine's
    construct-from-iterator; under that engine's contract the generator is
    left exhausted and the handle wraps a native buffer whose length is the
    number of elements produced, each of them stored once, in order. *)
Theorem array_generator_efficient_write (g : loc) (xs : list pyobj)
    (caps : gmap string pyobj) (w : world) :
  native_fromiter_contract np ->
  py_in "efficient-write" caps = true ->
  w !! g = Some xs ->
  single_type xs = true ->
  exists h,
    array datashape np blz (PGenerator g) PNone caps w
    = (inr h, <[g := []]> w) /\
    descriptor_variant h = native_buffer /\
    handle_len h = Some (length xs) /\
    handle_contents h = Some xs.
Proof.
  intros Hnp Hew Hg Hxs.
  exists (Array (NumPyDataDescriptor (PNdarray [length xs] (elem_dtype PNone xs) xs))).
  split; [ | done ].
  run. simpl. rewrite Hew. simpl. by rewrite (Hnp g xs PNone w Hg Hxs).
Qed.

(** C4: with [compress] and not [efficient-write] requested, a generator
    is streamed into the compressed-chunked engine's build-from-iterator
    with the count [-1]; under that engine's contract the handle wraps a
    compressed-chunked store that holds the elements the generator
    produced, in order, and the generator is left exhausted. *)
Theorem array_generator_compress (g : loc) (xs : list pyobj)
    (dshape ds1 dt : pyobj) (caps : gmap string pyobj) (w : world) :
  chunked_fromiter_contract blz ->
  py_in "efficient-write" caps = false ->
  py_in "compress" caps = true ->
  parsed datashape dshape = inr ds1 ->
  _is_str ds1 = false ->
  dtype_request datashape ds1 = inr dt ->
  w !! g = Some xs ->
  coercible dt xs = true ->
  array datashape np blz (PGenerator g) dshape caps w
  = (let '(r, w') := blz_fromiter blz (PGenerator g) dt (-1) w in
     (wrap BLZDataDescriptor r, w')) /\
  exists h,
    array datashape np blz (PGenerator g) dshape caps w
    = (inr h, <[g := []]> w) /\
    descriptor_variant h = compressed_chunked /\
    handle_len h = Some (length xs) /\
    handle_contents h = Some xs.
Proof.
  intros Hblz Hew Hc Hp Hs Hdt Hg Hxs.
  assert (array datashape np blz (PGenerator g) dshape caps w
          = (let '(r, w') := blz_fromiter blz (PGenerator g) dt (-1) w in
             (wrap BLZDataDescriptor r, w'))) as Heq.
  { run. destruct (_is_str dshape); simpl in *;
      [rewrite Hp | simplify_eq ]; simpl; rewrite Hs, Hew, Hc; simpl;
      destruct (is_None ds1); simplify_eq; simpl; crunch. }
  split; [done | ]. rewrite Heq, (Hblz g xs dt w Hg Hxs). simpl.
  by eexists.
Qed.

(** C5, as the code has it: [zeros] and [ones] make no check for an absent
    shape.  With a capability requested they hand an absent shape and an
    absent element type to the filling primitive of the engine the
    capabilities select, and the outcome is that primitive's: a handle
    around the store it returns, or its error. *)
Theorem fill_absent_shape (caps : gmap string pyobj) (w : world) :
  py_in "efficient-write" caps = true \/ py_in "compress" caps = true ->
  zeros datashape np blz PNone caps w
  = (if py_in "efficient-write" caps
     then wrap NumPyDataDescriptor (np_zeros np PNone PNone)
     else wrap BLZDataDescriptor (blz_zeros blz PNone PNone), w) /\
  ones datashape np blz PNone caps w
  = (if py_in "efficient-write" caps
     then wrap NumPyDataDescriptor (np_ones np PNone PNone)
     else wrap BLZDataDescriptor (blz_ones blz PNone PNone), w).
Proof.
  intros Hcaps. run. simpl.
  destruct (py_in "efficient-write" caps); simpl; [by crunch | ].
  destruct Hcaps as [ | ->]; [done | ]. simpl. by crunch.
Qed.

End properties.

(** ** The reference engines meet their contracts *)

Lemma ref_numpy_contract : native_fromiter_contract Ref.numpy.
Proof.
  intros g xs dt w Hg Hxs. simpl. unfold Ref.fromiter. by rewrite Hg, Hxs.
Qed.

Lemma ref_blz_contract : chunked_fromiter_contract Ref.blz.
Proof.
  intros g xs dt w Hg Hxs. simpl. unfold Ref.chunked_fromiter.
  rewrite Hg. simpl. by rewrite firstn_all, drop_all, Hxs.
Qed.

(** ** The properties at concrete calls on the reference collaborators *)

Lemma array_descriptor_passthrough_witness :
  let d := NumPyDataDescriptor (PNdarray [2%nat] int64 [PInt 1; PInt 2]) in
  isinstance d IDataDescriptor = true /\
  parsed Ref.datashape (PStr "2, int64") = inr (PDataShape [Some 2%nat] int64) /\
  array Ref.datashape Ref.numpy Ref.blz d (PStr "2, int64")
    {[ "compress" := PBool true ]} Ref.w0
  = (inr (Array d), Ref.w0).
Proof.
  do 2 (split; [reflexivity | ]).
  apply (array_descriptor_passthrough Ref.datashape Ref.numpy Ref.blz _ _
           (PDataShape [Some 2%nat] int64)); reflexivity.
Defined.

Lemma array_generator_efficient_write_witness :
  native_fromiter_contract Ref.numpy /\
  py_in "efficient-write" default_caps = true /\
  Ref.w0 !! 1%positive = Some [PInt 10; PInt 20; PInt 30] /\
  single_type [PInt 10; PInt 20; PInt 30] = true /\
  exists h,
    array Ref.datashape Ref.numpy Ref.blz (PGenerator 1%positive) PNone
      default_caps Ref.w0
    = (inr h, <[1%positive := []]> Ref.w0) /\
    descriptor_variant h = native_buffer /\
    handle_len h = Some 3%nat /\
    handle_contents h = Some [PInt 10; PInt 20; PInt 30].
Proof.
  split; [exact ref_numpy_contract | ].
  do 3 (split; [reflexivity | ]).
  apply (array_generator_efficient_write Ref.datashape Ref.numpy Ref.blz
           1%positive [PInt 10; PInt 20; PInt 30] default_caps Ref.w0
           ref_numpy_contract); reflexivity.
Defined.

Lemma array_generator_compress_witness :
  let caps : gmap string pyobj := {[ "compress" := PBool true ]} in
  chunked_fromiter_contract Ref.blz /\
  py_in "efficient-write" caps = false /\
  py_in "compress" caps = true /\
  parsed Ref.datashape (PStr "var, string") = inr (PDataShape [None] string_) /\
  _is_str (PDataShape [None] string_) = false /\
  dtype_request Ref.datashape (PDataShape [None] string_) = inr (PDtype string_) /\
  Ref.w0 !! 2%positive = Some [PStr "a"; PStr "b"] /\
  coercible (PDtype string_) [PStr "a"; PStr "b"] = true /\
  exists h,
    array Ref.datashape Ref.numpy Ref.blz (PGenerator 2%positive)
      (PStr "var, string") caps Ref.w0
    = (inr h, <[2%positive := []]> Ref.w0) /\
    descriptor_variant h = compressed_chunked /\
    handle_len h = Some 2%nat /\
    handle_contents h = Some [PStr "a"; PStr "b"].
Proof.
  split; [exact ref_blz_contract | ].
  do 7 (split; [reflexivity | ]).
  apply (array_generator_compress Ref.datashape Ref.numpy Ref.blz
           2%positive [PStr "a"; PStr "b"] (PStr "var, string")
           (PDataShape [None] string_) (PDtype string_)
           {[ "compress" := PBool true ]} Ref.w0 ref_blz_contract);
    reflexivity.
Defined.

(** C5, as stated, fails: with the default capabilities [zeros(None)] and
    [ones(None)] hand the absent shape to [numpy.zeros] and [numpy.ones],
    which read it as the shape of a 0-dimensional array, and a handle is
    returned. *)
Lemma fill_absent_shape_returns :
  zeros Ref.datashape Ref.numpy Ref.blz PNone default_caps Ref.w0
  = (inr (Array (NumPyDataDescriptor (PNdarray [] float64 [PInt 0]))), Ref.w0) /\
  ones Ref.datashape Ref.numpy Ref.blz PNone default_caps Ref.w0
  = (inr (Array (NumPyDataDescriptor (PNdarray [] float64 [PInt 1]))), Ref.w0) /\
  ~ fails (zeros Ref.datashape Ref.numpy Ref.blz PNone default_caps Ref.w0) /\
  ~ fails (ones Ref.datashape Ref.numpy Ref.blz PNone default_caps Ref.w0).
Proof.
  repeat split; try reflexivity; intros (e & w' & He); discriminate He.
Qed.

Lemma fill_absent_shape_witness :
  (py_in "efficient-write" default_caps = true \/
   py_in "compress" default_caps = true) /\
  zeros Ref.datashape Ref.numpy Ref.blz PNone default_caps Ref.w0
  = (wrap NumPyDataDescriptor (np_zeros Ref.numpy PNone PNone), Ref.w0) /\
  ones Ref.datashape Ref.numpy Ref.blz PNone default_caps Ref.w0
  = (wrap NumPyDataDescriptor (np_ones Ref.numpy PNone PNone), Ref.w0).
Proof.
  split; [left; reflexivity | ].
  apply (fill_absent_shape Ref.datashape Ref.numpy Ref.blz default_caps Ref.w0).
  left; reflexivity.
Defined.

Lemma array_unsupported_witness :
  let obj := PInstance [cls_named "Foo"] 7%positive in
  isinstance obj IDataDescriptor = false /\
  isinstance obj ndarray = false /\
  isinstance obj barray = false /\
  inspect_isgenerator obj = false /\
  py_in "efficient-write" (∅ : gmap string pyobj) = false /\
  py_in "compress" (∅ : gmap string pyobj) = false /\
  parsed Ref.datashape PNone = inr PNone /\
  array Ref.datashape Ref.numpy Ref.blz obj PNone ∅ Ref.w0
  = (inl (TypeError
            "Failed to construct blaze array from object of type <type 'instance'>"),
     Ref.w0).
Proof.
  do 7 (split; [reflexivity | ]).
  apply (array_unsupported Ref.datashape Ref.numpy Ref.blz
           (PInstance [cls_named "Foo"] 7%positive) PNone PNone ∅ Ref.w0);
    reflexivity.
Defined.

Lemma array_generator_no_capability_witness :
  py_in "efficient-write" (∅ : gmap string pyobj) = false /\
  py_in "compress" (∅ : gmap string pyobj) = false /\
  exists e,
    (forall np' blz',
        array Ref.datashape np' blz' (PGenerator 1%positive) PNone ∅ Ref.w0
        = (inl e, Ref.w0)) /\
    (forall ds1, parsed Ref.datashape PNone = inr ds1 -> _is_str ds1 = false ->
                 e = UnboundLocalError "dd" /\
                 forall np' blz',
                   _fromiter Ref.datashape np' blz' (PGenerator 1%positive) ds1 ∅ Ref.w0
                   = (inl e, Ref.w0)).
Proof.
  do 2 (split; [reflexivity | ]).
  apply (array_generator_no_capability Ref.datashape 1%positive PNone ∅ Ref.w0);
    reflexivity.
Defined.

Lemma efficient_write_wins_witness :
  let caps : gmap string pyobj := <[ "compress" := PBool true ]> default_caps in
  py_in "efficient-write" caps = true /\
  py_in "compress" caps = true /\
  (array Ref.datashape Ref.numpy Ref.blz (PList [PInt 1; PInt 2]) PNone caps Ref.w0
   = native_coerce Ref.datashape Ref.numpy (PList [PInt 1; PInt 2]) PNone Ref.w0 /\
   native_only
     (fun blz => array Ref.datashape Ref.numpy blz (PList [PInt 1; PInt 2]) PNone)
     caps Ref.w0) /\
  (_fromiter Ref.datashape Ref.numpy Ref.blz (PGenerator 1%positive) PNone caps Ref.w0
   = native_fromiter Ref.datashape Ref.numpy (PGenerator 1%positive) PNone Ref.w0 /\
   native_only
     (fun blz => _fromiter Ref.datashape Ref.numpy blz (PGenerator 1%positive) PNone)
     caps Ref.w0) /\
  (zeros Ref.datashape Ref.numpy Ref.blz (PStr "2, int64") caps Ref.w0
   = native_filled Ref.datashape (np_zeros Ref.numpy) (PStr "2, int64") Ref.w0 /\
   native_only (fun blz => zeros Ref.datashape Ref.numpy blz (PStr "2, int64"))
     caps Ref.w0) /\
  (ones Ref.datashape Ref.numpy Ref.blz (PStr "2, int64") caps Ref.w0
   = native_filled Ref.datashape (np_ones Ref.numpy) (PStr "2, int64") Ref.w0 /\
   native_only (fun blz => ones Ref.datashape Ref.numpy blz (PStr "2, int64"))
     caps Ref.w0).
Proof.
  do 2 (split; [reflexivity | ]).
  destruct (efficient_write_wins Ref.datashape Ref.numpy Ref.blz
              (<[ "compress" := PBool true ]> default_caps) Ref.w0)
    as (Harray & Hiter & Hzeros & Hones); [reflexivity | reflexivity | ].
  split; [exact (Harray (PList [PInt 1; PInt 2]) PNone eq_refl eq_refl eq_refl) | ].
  split; [exact (Hiter (PGenerator 1%positive) PNone) | ].
  split; [exact (Hzeros (PStr "2, int64")) | exact (Hones (PStr "2, int64"))].
Defined.

Lemma array_malformed_dshape_witness :
  let d := NumPyDataDescriptor (PNdarray [2%nat] int64 [PInt 1; PInt 2]) in
  _dshape_builder Ref.datashape (PStr "2, intt")
  = inl (OtherError "DataShapeSyntaxError" "2, intt") /\
  array Ref.datashape Ref.numpy Ref.blz d (PStr "2, intt") default_caps Ref.w0
  = (inl (OtherError "DataShapeSyntaxError" "2, intt"), Ref.w0).
Proof.
  split; [reflexivity | ].
  apply (array_malformed_dshape Ref.datashape Ref.numpy Ref.blz); reflexivity.
Defined.

(** ** Further properties of the constructors *)

Section further_properties.
Variable datashape : DataShapeModule.
Variable np : NumPyModule.
Variable blz : BLZModule.

(** X1: a NumPy array that is no data descriptor is wrapped as it is in a
    [NumPyDataDescriptor], whatever the capabilities, the empty set
    included: no engine is called, nothing is copied, no generator is
    touched. *)
Theorem array_ndarray_wrapped (obj dshape ds1 : pyobj)
    (caps : gmap string pyobj) (w : world) :
  isinstance obj IDataDescriptor = false ->
  isinstance obj ndarray = true ->
  parsed datashape dshape = inr ds1 ->
  array datashape np blz obj dshape caps w
  = (inr (Array (NumPyDataDescriptor obj)), w).
Proof.
  intros H1 H2 Hp. run.
  destruct (_is_str dshape); simpl in *; [rewrite Hp | ]; by rewrite H1, H2.
Qed.

(** X2: a BLZ array that is neither a data descriptor nor a NumPy array is
    wrapped as it is in a [BLZDataDescriptor], whatever the capabilities,
    [efficient-write] included: it is not converted to a native buffer. *)
Theorem array_barray_wrapped (obj dshape ds1 : pyobj)
    (caps : gmap string pyobj) (w : world) :
  isinstance obj IDataDescriptor = false ->
  isinstance obj ndarray = false ->
  isinstance obj barray = true ->
  parsed datashape dshape = inr ds1 ->
  array datashape np blz obj dshape caps w
  = (inr (Array (BLZDataDescriptor obj)), w).
Proof.
  intros H1 H2 H3 Hp. run.
  destruct (_is_str dshape); simpl in *; [rewrite Hp | ];
    by rewrite H1, H2, H3.
Qed.

(** X3: of an explicit dshape only the element type counts.  Two structured
    dshapes that ask for the same element type give the same outcome for
    every [obj] and [caps]: the dimensions are never looked at. *)
Theorem array_dshape_extents_ignored (obj ds1 ds2 : pyobj)
    (caps : gmap string pyobj) (w : world) :
  _is_str ds1 = false ->
  _is_str ds2 = false ->
  dtype_request datashape ds1 = dtype_request datashape ds2 ->
  array datashape np blz obj ds1 caps w = array datashape np blz obj ds2 caps w.
Proof.
  intros Hs1 Hs2 Hdt. run. rewrite Hs1, Hs2. simpl. rewrite Hs1, Hs2. simpl.
  destruct (isinstance obj IDataDescriptor); [done | ].
  destruct (isinstance obj ndarray); [done | ].
  destruct (isinstance obj barray); [done | ].
  destruct (is_None ds1), (is_None ds2); simplify_eq/=;
    rewrite <- ?Hdt, ?Hdt; crunch.
Qed.

(** X4: the capabilities count by the presence of their keys alone.  Two
    dictionaries that agree on whether [efficient-write] is a key and on
    whether [compress] is a key give the same outcome in [array],
    [_fromiter], [zeros] and [ones]; the values stored under the keys, a
    false one included, and any other key are never read. *)
Theorem caps_by_key_presence (caps caps' : gmap string pyobj)
    (obj dshape : pyobj) (w : world) :
  py_in "efficient-write" caps = py_in "efficient-write" caps' ->
  py_in "compress" caps = py_in "compress" caps' ->
  array datashape np blz obj dshape caps w
  = array datashape np blz obj dshape caps' w /\
  _fromiter datashape np blz obj dshape caps w
  = _fromiter datashape np blz obj dshape caps' w /\
  zeros datashape np blz dshape caps w = zeros datashape np blz dshape caps' w /\
  ones datashape np blz dshape caps w = ones datashape np blz dshape caps' w.
Proof.
  intros Hew Hc. run. by rewrite Hew, Hc.
Qed.

(** X5: with [compress] and without [efficient-write] every entry point
    that branches on the capabilities builds on the compressed-chunked
    engine: the coercion branch of [array] is the compressing coercion
    through [blz.barray], its generator branch and [_fromiter] are the
    compressing iterator path through [blz.fromiter] with the count [-1],
    [zeros] and [ones] are the compressing fill through [blz.zeros] and
    [blz.ones].  The NumPy module has no say in the outcome, and a handle
    they return wraps a [BLZDataDescriptor]. *)
Theorem compress_selects_chunked (caps : gmap string pyobj) (w : world) :
  py_in "efficient-write" caps = false ->
  py_in "compress" caps = true ->
  (forall obj dshape,
      isinstance obj IDataDescriptor = false ->
      isinstance obj ndarray = false ->
      isinstance obj barray = false ->
      array datashape np blz obj dshape caps w
      = (if inspect_isgenerator obj
         then (ds1 ← lift (parsed datashape dshape);
               chunked_stream datashape blz obj ds1) w
         else chunked_coerce datashape blz obj dshape w) /\
      chunked_only (fun np => array datashape np blz obj dshape caps) w) /\
  (forall gen dshape,
      _fromiter datashape np blz gen dshape caps w
      = chunked_stream datashape blz gen dshape w /\
      chunked_only (fun np => _fromiter datashape np blz gen dshape caps) w) /\
  (forall dshape,
      zeros datashape np blz dshape caps w
      = chunked_fill datashape (blz_zeros blz) dshape w /\
      chunked_only (fun np => zeros datashape np blz dshape caps) w) /\
  (forall dshape,
      ones datashape np blz dshape caps w
      = chunked_fill datashape (blz_ones blz) dshape w /\
      chunked_only (fun np => ones datashape np blz dshape caps) w).
Proof.
  intros Hew Hc.
  repeat split; intros; run_branches; run;
    rewrite ?Hew, ?Hc in *; simpl in *; crunch.
Qed.

(** X6: [zeros] and [ones] called with capabilities that hold neither
    [efficient-write] nor [compress] fail with the [UnboundLocalError] of
    the descriptor that was never built, once the dshape is normalised.  The
    shape projection and the engines are not reached: a dshape they would
    refuse makes no difference. *)
Theorem fill_no_capability (dshape ds1 : pyobj) (caps : gmap string pyobj)
    (w : world) :
  py_in "efficient-write" caps = false ->
  py_in "compress" caps = false ->
  parsed datashape dshape = inr ds1 ->
  forall np' blz',
    zeros datashape np' blz' dshape caps w = (inl (UnboundLocalError "dd"), w) /\
    ones datashape np' blz' dshape caps w = (inl (UnboundLocalError "dd"), w).
Proof.
  intros Hew Hc Hp np' blz'. run.
  destruct (_is_str dshape); simpl in *; [rewrite Hp | ]; by rewrite Hew, Hc.
Qed.

(** X7: when the element type of the dshape cannot be resolved, the
    coercion and generator branches of [array] fail with [to_dtype]'s error
    before any engine is called: the outcome is the same whatever the
    engines are, and a generator is not drawn from. *)
Theorem array_dtype_error (obj dshape ds1 : pyobj) (e : exn)
    (caps : gmap string pyobj) (w : world) :
  isinstance obj IDataDescriptor = false ->
  isinstance obj ndarray = false ->
  isinstance obj barray = false ->
  py_in "efficient-write" caps = true \/ py_in "compress" caps = true ->
  parsed datashape dshape = inr ds1 ->
  _is_str ds1 = false ->
  dtype_request datashape ds1 = inl e ->
  forall np' blz', array datashape np' blz' obj dshape caps w = (inl e, w).
Proof.
  intros H1 H2 H3 Hcaps Hp Hs Hdt np' blz'. run.
  assert (is_None ds1 = false) as Hn by (destruct (is_None ds1); done).
  rewrite Hn in Hdt.
  destruct (_is_str dshape); simpl in *; [rewrite Hp | simplify_eq ]; simpl;
    rewrite H1, H2, H3, ?Hs; simpl;
    destruct (isinstance obj GeneratorType); simpl;
    destruct (py_in "efficient-write" caps); simpl;
    rewrite ?Hn, ?Hdt; simpl; try done;
    destruct Hcaps as [ | ->]; try done; by rewrite ?Hn, ?Hdt.
Qed.

(** X8: when the shape projection refuses the dshape, an unbound dimension
    for one, [zeros] and [ones] fail with [to_numpy]'s error before any
    engine is called. *)
Theorem fill_projection_error (dshape ds1 : pyobj) (e : exn)
    (caps : gmap string pyobj) (w : world) :
  py_in "efficient-write" caps = true \/ py_in "compress" caps = true ->
  parsed datashape dshape = inr ds1 ->
  is_None ds1 = false ->
  to_numpy datashape ds1 = inl e ->
  forall np' blz',
    zeros datashape np' blz' dshape caps w = (inl e, w) /\
    ones datashape np' blz' dshape caps w = (inl e, w).
Proof.
  intros Hcaps Hp Hn He np' blz'. run.
  destruct (_is_str dshape); simpl in *; [rewrite Hp | simplify_eq ]; simpl;
    (destruct (py_in "efficient-write" caps); simpl;
     [ | destruct Hcaps as [ | ->]; [done | ] ]; by rewrite Hn, He).
Qed.

(** X9: [_fromiter], [zeros] and [ones] parse a textual dshape before
    anything else, as [array] does: when the parser rejects the text they
    fail with the parser's error whatever the capabilities are, the empty
    set included, no engine is called and a generator is not drawn from. *)
Theorem entry_points_malformed_dshape (gen : pyobj) (s : string)
    (caps : gmap string pyobj) (e : exn) (w : world) :
  _dshape_builder datashape (PStr s) = inl e ->
  forall np' blz',
    _fromiter datashape np' blz' gen (PStr s) caps w = (inl e, w) /\
    zeros datashape np' blz' (PStr s) caps w = (inl e, w) /\
    ones datashape np' blz' (PStr s) caps w = (inl e, w).
Proof. intros He np' blz'. run. simpl. by rewrite He. Qed.

(** X10: on a generator [array] is [_fromiter]: when the parser returns a
    structured descriptor, the second normalisation in [_fromiter] does
    nothing and the two calls have the same outcome. *)
Theorem array_generator_delegates (g : loc) (dshape ds1 : pyobj)
    (caps : gmap string pyobj) (w : world) :
  parsed datashape dshape = inr ds1 ->
  _is_str ds1 = false ->
  array datashape np blz (PGenerator g) dshape caps w
  = _fromiter datashape np blz (PGenerator g) dshape caps w.
Proof.
  intros Hp Hs. run.
  destruct (_is_str dshape); simpl in *; [rewrite Hp | simplify_eq ]; simpl;
    by rewrite ?Hs.
Qed.

(** A handle [array] returns wraps a data descriptor. *)
Lemma array_returns_descriptor (obj dshape : pyobj) (caps : gmap string pyobj)
    (w w' : world) (h : blaze_array) :
  array datashape np blz obj dshape caps w = (inr h, w') ->
  isinstance (_data h) IDataDescriptor = true.
Proof.
  run. destruct (isinstance obj IDataDescriptor) eqn:H1; crunch;
    by intros [= <- <-].
Qed.

(** X11: every handle a constructor returns wraps an instance of
    [IDataDescriptor], whichever of [array], [_fromiter], [zeros] and [ones]
    built it and whichever branch was taken. *)
Theorem handle_wraps_descriptor (obj dshape : pyobj)
    (caps : gmap string pyobj) (w w' : world) (h : blaze_array) :
  array datashape np blz obj dshape caps w = (inr h, w') \/
  _fromiter datashape np blz obj dshape caps w = (inr h, w') \/
  zeros datashape np blz dshape caps w = (inr h, w') \/
  ones datashape np blz dshape caps w = (inr h, w') ->
  isinstance (_data h) IDataDescriptor = true.
Proof.
  intros [H | [H | [H | H]]]; [by eapply array_returns_descriptor | .. ];
    revert H; run; crunch; by intros [= <- <-].
Qed.

(** X12: wrapping again changes nothing.  The descriptor of a handle that
    [array] returned, given back to [array] under any capabilities and any
    accepted dshape, yields that same handle and touches no generator. *)
Theorem array_rewrap (obj dshape : pyobj) (caps : gmap string pyobj)
    (w w' : world) (h : blaze_array) (dshape2 ds2 : pyobj)
    (caps2 : gmap string pyobj) (w2 : world) :
  array datashape np blz obj dshape caps w = (inr h, w') ->
  parsed datashape dshape2 = inr ds2 ->
  array datashape np blz (_data h) dshape2 caps2 w2 = (inr h, w2).
Proof.
  intros Hh%array_returns_descriptor Hp. destruct h as [dd]. simpl in *.
  run. destruct (_is_str dshape2); simpl in *; [rewrite Hp | ]; by rewrite Hh.
Qed.

(** X13: with [efficient-write] and an explicit dshape, the element type
    the native engine is asked for is the dshape's: under the engine's
    contract a generator whose elements are all of that type yields a native
    handle of that element type holding them in order, and is left
    exhausted. *)
Theorem array_generator_dtype_from_dshape (g : loc) (xs : list pyobj)
    (dshape ds1 : pyobj) (T : dtype) (caps : gmap string pyobj) (w : world) :
  native_fromiter_contract np ->
  py_in "efficient-write" caps = true ->
  parsed datashape dshape = inr ds1 ->
  _is_str ds1 = false ->
  dtype_request datashape ds1 = inr (PDtype T) ->
  w !! g = Some xs ->
  all_of_type T xs = true ->
  exists h,
    array datashape np blz (PGenerator g) dshape caps w
    = (inr h, <[g := []]> w) /\
    descriptor_variant h = native_buffer /\
    handle_dtype h = Some T /\
    handle_contents h = Some xs.
Proof.
  intros Hnp Hew Hp Hs Hdt Hg Hxs.
  exists (Array (NumPyDataDescriptor (PNdarray [length xs] T xs))).
  split; [ | done ].
  pose proof (Hnp g xs (PDtype T) w Hg Hxs) as Hcall. simpl in Hcall.
  run. destruct (_is_str dshape); simpl in *;
    [rewrite Hp | simplify_eq ]; simpl; rewrite Hs, Hew; simpl;
    destruct (is_None ds1); simplify_eq; simpl; rewrite ?Hdt; simpl;
    by rewrite Hcall.
Qed.

(** X14: for a dshape whose dimensions are all fixed, [zeros] and [ones]
    return, under the contracts of the shape projection and of the engines'
    filling primitives, handles of exactly those extents and that element
    type whose every element is [0], respectively [1], on the engine the
    capabilities select. *)
Theorem fill_fixed_shape (ns : list nat) (T : dtype)
    (caps : gmap string pyobj) (w : world) :
  projection_contract datashape ->
  native_filled_contract np ->
  chunked_filled_contract blz ->
  py_in "efficient-write" caps = true \/ py_in "compress" caps = true ->
  exists hz ho,
    zeros datashape np blz (PDataShape (Some <$> ns) T) caps w = (inr hz, w) /\
    ones datashape np blz (PDataShape (Some <$> ns) T) caps w = (inr ho, w) /\
    handle_shape hz = Some ns /\ handle_shape ho = Some ns /\
    handle_dtype hz = Some T /\ handle_dtype ho = Some T /\
    handle_contents hz = Some (replicate (size_of ns) (PInt 0)) /\
    handle_contents ho = Some (replicate (size_of ns) (PInt 1)) /\
    descriptor_variant hz = descriptor_variant ho /\
    descriptor_variant hz
    = (if py_in "efficient-write" caps then native_buffer
       else compressed_chunked).
Proof.
  intros Hproj Hnp Hblz Hcaps.
  destruct (Hnp ns T) as [Hnz Hno]. destruct (Hblz ns T) as [Hbz Hbo].
  pose proof (Hproj ns T) as Hsh.
  destruct (py_in "efficient-write" caps) eqn:Hew.
  - eexists _, _. run. rewrite Hew. simpl. rewrite Hsh. simpl.
    rewrite Hnz, Hno. simpl. by repeat split.
  - destruct Hcaps as [ | Hc]; [done | ].
    eexists _, _. run. rewrite Hew, Hc. simpl. rewrite Hsh. simpl.
    rewrite Hbz, Hbo. simpl. by repeat split.
Qed.

End further_properties.

(** ** The reference collaborators meet the filling contracts *)

Lemma ref_fixed_extents (ns : list nat) :
  Ref.fixed_extents (Some <$> ns) = Some ns.
Proof. induction ns as [ | n ns IH]; csimpl; [done | by rewrite IH]. Qed.

Lemma ref_extents (ns : list nat) :
  Ref.extents ((fun n => PInt (Z.of_nat n)) <$> ns) = Some ns.
Proof.
  induction ns as [ | n ns IH]; csimpl; [done | ]. rewrite IH.
  destruct (Z.leb_spec 0 (Z.of_nat n)) as [_ | Hneg]; [ | lia ].
  by rewrite Nat2Z.id.
Qed.

Lemma ref_projection_contract : projection_contract Ref.datashape.
Proof.
  intros ns T. change (to_numpy Ref.datashape) with Ref.shape_and_dtype.
  unfold Ref.shape_and_dtype. by rewrite ref_fixed_extents.
Qed.

Lemma ref_native_filled_contract : native_filled_contract Ref.numpy.
Proof.
  intros ns T. change (np_zeros Ref.numpy) with (Ref.filled 0).
  change (np_ones Ref.numpy) with (Ref.filled 1).
  unfold Ref.filled, shape_arg. by rewrite ref_extents.
Qed.

Lemma ref_chunked_filled_contract : chunked_filled_contract Ref.blz.
Proof.
  intros ns T. change (blz_zeros Ref.blz) with (Ref.chunked_filled 0).
  change (blz_ones Ref.blz) with (Ref.chunked_filled 1).
  unfold Ref.chunked_filled, shape_arg. by rewrite ref_extents.
Qed.

(** ** The further properties at concrete calls *)

Lemma array_ndarray_wrapped_witness :
  let a := PNdarray [2%nat] int64 [PInt 1; PInt 2] in
  isinstance a IDataDescriptor = false /\
  isinstance a ndarray = true /\
  parsed Ref.datashape PNone = inr PNone /\
  array Ref.datashape Ref.numpy Ref.blz a PNone ∅ Ref.w0
  = (inr (Array (NumPyDataDescriptor a)), Ref.w0).
Proof.
  do 3 (split; [reflexivity | ]).
  apply (array_ndarray_wrapped Ref.datashape Ref.numpy Ref.blz
           (PNdarray [2%nat] int64 [PInt 1; PInt 2]) PNone PNone ∅ Ref.w0);
    reflexivity.
Defined.

Lemma array_barray_wrapped_witness :
  let b := PBarray [2%nat] int64 [PInt 1; PInt 2] in
  isinstance b IDataDescriptor = false /\
  isinstance b ndarray = false /\
  isinstance b barray = true /\
  parsed Ref.datashape PNone = inr PNone /\
  array Ref.datashape Ref.numpy Ref.blz b PNone default_caps Ref.w0
  = (inr (Array (BLZDataDescriptor b)), Ref.w0).
Proof.
  do 4 (split; [reflexivity | ]).
  apply (array_barray_wrapped Ref.datashape Ref.numpy Ref.blz
           (PBarray [2%nat] int64 [PInt 1; PInt 2]) PNone PNone
           default_caps Ref.w0);
    reflexivity.
Defined.

Lemma array_dshape_extents_ignored_witness :
  let ds1 := PDataShape [Some 2%nat] int64 in
  let ds2 := PDataShape [Some 5%nat; None] int64 in
  _is_str ds1 = false /\
  _is_str ds2 = false /\
  dtype_request Ref.datashape ds1 = dtype_request Ref.datashape ds2 /\
  array Ref.datashape Ref.numpy Ref.blz (PList [PInt 1; PInt 2]) ds1
    default_caps Ref.w0
  = array Ref.datashape Ref.numpy Ref.blz (PList [PInt 1; PInt 2]) ds2
      default_caps Ref.w0.
Proof.
  do 3 (split; [reflexivity | ]).
  apply (array_dshape_extents_ignored Ref.datashape Ref.numpy Ref.blz
           (PList [PInt 1; PInt 2]) (PDataShape [Some 2%nat] int64)
           (PDataShape [Some 5%nat; None] int64) default_caps Ref.w0);
    reflexivity.
Defined.

Lemma caps_by_key_presence_witness :
  let caps' : gmap string pyobj :=
    <[ "colour" := PStr "red" ]> {[ "efficient-write" := PBool false ]} in
  py_in "efficient-write" default_caps = py_in "efficient-write" caps' /\
  py_in "compress" default_caps = py_in "compress" caps' /\
  array Ref.datashape Ref.numpy Ref.blz (PInt 42) PNone default_caps Ref.w0
  = array Ref.datashape Ref.numpy Ref.blz (PInt 42) PNone caps' Ref.w0.
Proof.
  do 2 (split; [reflexivity | ]).
  apply (caps_by_key_presence Ref.datashape Ref.numpy Ref.blz default_caps
           (<[ "colour" := PStr "red" ]> {[ "efficient-write" := PBool false ]})
           (PInt 42) PNone Ref.w0);
    reflexivity.
Defined.

Lemma compress_selects_chunked_witness :
  let caps : gmap string pyobj := {[ "compress" := PBool true ]} in
  py_in "efficient-write" caps = false /\
  py_in "compress" caps = true /\
  (array Ref.datashape Ref.numpy Ref.blz (PList [PInt 1; PInt 2]) PNone caps Ref.w0
   = chunked_coerce Ref.datashape Ref.blz (PList [PInt 1; PInt 2]) PNone Ref.w0 /\
   chunked_only
     (fun np => array Ref.datashape np Ref.blz (PList [PInt 1; PInt 2]) PNone caps)
     Ref.w0) /\
  (_fromiter Ref.datashape Ref.numpy Ref.blz (PGenerator 1%positive) PNone caps Ref.w0
   = chunked_stream Ref.datashape Ref.blz (PGenerator 1%positive) PNone Ref.w0 /\
   chunked_only
     (fun np => _fromiter Ref.datashape np Ref.blz (PGenerator 1%positive) PNone caps)
     Ref.w0) /\
  (zeros Ref.datashape Ref.numpy Ref.blz (PStr "2, int64") caps Ref.w0
   = chunked_fill Ref.datashape (blz_zeros Ref.blz) (PStr "2, int64") Ref.w0 /\
   chunked_only (fun np => zeros Ref.datashape np Ref.blz (PStr "2, int64") caps)
     Ref.w0) /\
  (ones Ref.datashape Ref.numpy Ref.blz (PStr "2, int64") caps Ref.w0
   = chunked_fill Ref.datashape (blz_ones Ref.blz) (PStr "2, int64") Ref.w0 /\
   chunked_only (fun np => ones Ref.datashape np Ref.blz (PStr "2, int64") caps)
     Ref.w0).
Proof.
  do 2 (split; [reflexivity | ]).
  destruct (compress_selects_chunked Ref.datashape Ref.numpy Ref.blz
              {[ "compress" := PBool true ]} Ref.w0)
    as (Harray & Hiter & Hzeros & Hones); [reflexivity | reflexivity | ].
  split; [exact (Harray (PList [PInt 1; PInt 2]) PNone eq_refl eq_refl eq_refl) | ].
  split; [exact (Hiter (PGenerator 1%positive) PNone) | ].
  split; [exact (Hzeros (PStr "2, int64")) | exact (Hones (PStr "2, int64"))].
Defined.

Lemma fill_no_capability_witness :
  py_in "efficient-write" (∅ : gmap string pyobj) = false /\
  py_in "compress" (∅ : gmap string pyobj) = false /\
  parsed Ref.datashape (PStr "var, int64") = inr (PDataShape [None] int64) /\
  zeros Ref.datashape Ref.numpy Ref.blz (PStr "var, int64") ∅ Ref.w0
  = (inl (UnboundLocalError "dd"), Ref.w0) /\
  ones Ref.datashape Ref.numpy Ref.blz (PStr "var, int64") ∅ Ref.w0
  = (inl (UnboundLocalError "dd"), Ref.w0).
Proof.
  do 3 (split; [reflexivity | ]).
  apply (fill_no_capability Ref.datashape (PStr "var, int64")
           (PDataShape [None] int64) ∅ Ref.w0);
    reflexivity.
Defined.

Lemma array_dtype_error_witness :
  let g := PGenerator 1%positive in
  isinstance g IDataDescriptor = false /\
  isinstance g ndarray = false /\
  isinstance g barray = false /\
  (py_in "efficient-write" default_caps = true \/
   py_in "compress" default_caps = true) /\
  parsed Ref.datashape (PInt 3) = inr (PInt 3) /\
  _is_str (PInt 3) = false /\
  dtype_request Ref.datashape (PInt 3)
  = inl (TypeError "to_dtype: not a datashape") /\
  array Ref.datashape Ref.numpy Ref.blz g (PInt 3) default_caps Ref.w0
  = (inl (TypeError "to_dtype: not a datashape"), Ref.w0).
Proof.
  do 3 (split; [reflexivity | ]). split; [left; reflexivity | ].
  do 3 (split; [reflexivity | ]).
  apply (array_dtype_error Ref.datashape (PGenerator 1%positive) (PInt 3)
           (PInt 3) (TypeError "to_dtype: not a datashape") default_caps Ref.w0);
    try reflexivity.
  left; reflexivity.
Defined.

Lemma fill_projection_error_witness :
  (py_in "efficient-write" default_caps = true \/
   py_in "compress" default_caps = true) /\
  parsed Ref.datashape (PStr "var, int64") = inr (PDataShape [None] int64) /\
  is_None (PDataShape [None] int64) = false /\
  to_numpy Ref.datashape (PDataShape [None] int64)
  = inl (TypeError "to_numpy: unbound dimension") /\
  zeros Ref.datashape Ref.numpy Ref.blz (PStr "var, int64") default_caps Ref.w0
  = (inl (TypeError "to_numpy: unbound dimension"), Ref.w0) /\
  ones Ref.datashape Ref.numpy Ref.blz (PStr "var, int64") default_caps Ref.w0
  = (inl (TypeError "to_numpy: unbound dimension"), Ref.w0).
Proof.
  split; [left; reflexivity | ]. do 3 (split; [reflexivity | ]).
  apply (fill_projection_error Ref.datashape (PStr "var, int64")
           (PDataShape [None] int64)
           (TypeError "to_numpy: unbound dimension") default_caps Ref.w0);
    try reflexivity.
  left; reflexivity.
Defined.

Lemma entry_points_malformed_dshape_witness :
  _dshape_builder Ref.datashape (PStr "2, intt")
  = inl (OtherError "DataShapeSyntaxError" "2, intt") /\
  _fromiter Ref.datashape Ref.numpy Ref.blz (PGenerator 1%positive)
    (PStr "2, intt") ∅ Ref.w0
  = (inl (OtherError "DataShapeSyntaxError" "2, intt"), Ref.w0) /\
  zeros Ref.datashape Ref.numpy Ref.blz (PStr "2, intt") ∅ Ref.w0
  = (inl (OtherError "DataShapeSyntaxError" "2, intt"), Ref.w0) /\
  ones Ref.datashape Ref.numpy Ref.blz (PStr "2, intt") ∅ Ref.w0
  = (inl (OtherError "DataShapeSyntaxError" "2, intt"), Ref.w0).
Proof.
  split; [reflexivity | ].
  apply (entry_points_malformed_dshape Ref.datashape (PGenerator 1%positive)
           "2, intt" ∅ (OtherError "DataShapeSyntaxError" "2, intt") Ref.w0).
  reflexivity.
Defined.

Lemma array_generator_delegates_witness :
  parsed Ref.datashape (PStr "3, int64") = inr (PDataShape [Some 3%nat] int64) /\
  _is_str (PDataShape [Some 3%nat] int64) = false /\
  array Ref.datashape Ref.numpy Ref.blz (PGenerator 1%positive)
    (PStr "3, int64") default_caps Ref.w0
  = _fromiter Ref.datashape Ref.numpy Ref.blz (PGenerator 1%positive)
      (PStr "3, int64") default_caps Ref.w0.
Proof.
  do 2 (split; [reflexivity | ]).
  apply (array_generator_delegates Ref.datashape Ref.numpy Ref.blz 1%positive
           (PStr "3, int64") (PDataShape [Some 3%nat] int64) default_caps Ref.w0);
    reflexivity.
Defined.

Lemma handle_wraps_descriptor_witness :
  let h := Array (NumPyDataDescriptor (PNdarray [] int64 [PInt 42])) in
  array Ref.datashape Ref.numpy Ref.blz (PInt 42) PNone default_caps Ref.w0
  = (inr h, Ref.w0) /\
  isinstance (_data h) IDataDescriptor = true.
Proof.
  split; [reflexivity | ].
  apply (handle_wraps_descriptor Ref.datashape Ref.numpy Ref.blz (PInt 42) PNone
           default_caps Ref.w0 Ref.w0).
  left; reflexivity.
Defined.

Lemma array_rewrap_witness :
  let h := Array (NumPyDataDescriptor (PNdarray [] int64 [PInt 42])) in
  array Ref.datashape Ref.numpy Ref.blz (PInt 42) PNone default_caps Ref.w0
  = (inr h, Ref.w0) /\
  parsed Ref.datashape (PStr "2, bool") = inr (PDataShape [Some 2%nat] bool_) /\
  array Ref.datashape Ref.numpy Ref.blz (_data h) (PStr "2, bool")
    {[ "compress" := PBool true ]} Ref.w0
  = (inr h, Ref.w0).
Proof.
  do 2 (split; [reflexivity | ]).
  apply (array_rewrap Ref.datashape Ref.numpy Ref.blz (PInt 42) PNone
           default_caps Ref.w0 Ref.w0
           (Array (NumPyDataDescriptor (PNdarray [] int64 [PInt 42])))
           (PStr "2, bool") (PDataShape [Some 2%nat] bool_)
           {[ "compress" := PBool true ]} Ref.w0);
    reflexivity.
Defined.

Lemma array_generator_dtype_from_dshape_witness :
  native_fromiter_contract Ref.numpy /\
  py_in "efficient-write" default_caps = true /\
  parsed Ref.datashape (PStr "var, int64") = inr (PDataShape [None] int64) /\
  _is_str (PDataShape [None] int64) = false /\
  dtype_request Ref.datashape (PDataShape [None] int64) = inr (PDtype int64) /\
  Ref.w0 !! 1%positive = Some [PInt 10; PInt 20; PInt 30] /\
  all_of_type int64 [PInt 10; PInt 20; PInt 30] = true /\
  exists h,
    array Ref.datashape Ref.numpy Ref.blz (PGenerator 1%positive)
      (PStr "var, int64") default_caps Ref.w0
    = (inr h, <[1%positive := []]> Ref.w0) /\
    descriptor_variant h = native_buffer /\
    handle_dtype h = Some int64 /\
    handle_contents h = Some [PInt 10; PInt 20; PInt 30].
Proof.
  split; [exact ref_numpy_contract | ]. do 6 (split; [reflexivity | ]).
  apply (array_generator_dtype_from_dshape Ref.datashape Ref.numpy Ref.blz
           1%positive [PInt 10; PInt 20; PInt 30] (PStr "var, int64")
           (PDataShape [None] int64) int64 default_caps Ref.w0
           ref_numpy_contract);
    reflexivity.
Defined.

Lemma fill_fixed_shape_witness :
  projection_contract Ref.datashape /\
  native_filled_contract Ref.numpy /\
  chunked_filled_contract Ref.blz /\
  (py_in "efficient-write" default_caps = true \/
   py_in "compress" default_caps = true) /\
  exists hz ho,
    zeros Ref.datashape Ref.numpy Ref.blz
      (PDataShape (Some <$> [2%nat; 3%nat]) int64) default_caps Ref.w0
    = (inr hz, Ref.w0) /\
    ones Ref.datashape Ref.numpy Ref.blz
      (PDataShape (Some <$> [2%nat; 3%nat]) int64) default_caps Ref.w0
    = (inr ho, Ref.w0) /\
    handle_shape hz = Some [2%nat; 3%nat] /\
    handle_shape ho = Some [2%nat; 3%nat] /\
    handle_dtype hz = Some int64 /\ handle_dtype ho = Some int64 /\
    handle_contents hz = Some (replicate (size_of [2%nat; 3%nat]) (PInt 0)) /\
    handle_contents ho = Some (replicate (size_of [2%nat; 3%nat]) (PInt 1)) /\
    descriptor_variant hz = descriptor_variant ho /\
    descriptor_variant hz
    = (if py_in "efficient-write" default_caps then native_buffer
       else compressed_chunked).
Proof.
  split; [exact ref_projection_contract | ].
  split; [exact ref_native_filled_contract | ].
  split; [exact ref_chunked_filled_contract | ].
  split; [left; reflexivity | ].
  apply (fill_fixed_shape Ref.datashape Ref.numpy Ref.blz [2%nat; 3%nat] int64
           default_caps Ref.w0 ref_projection_contract
           ref_native_filled_contract ref_chunked_filled_contract).
  left; reflexivity.
Defined.
